(** * web3auth.js: the secret life cycle and the key derivation chain

    A shallow embedding of [src/web3auth.js].  The module keeps two
    variables, [web3auth] (the client handle, [null] until [init]) and
    [secret] (whatever the provider returned, [null] until recovered), and
    exposes three asynchronous operations ([init], [recoverSecret],
    [forgetSecret]) and seven synchronous accessors.

    Everything the module imports (the Web3Auth modal client, the bip39 and
    bip32 packages, the constants file) is an interface here: the class
    [Collaborators].  An [await] is sequencing: the module has one logical
    actor. *)

From Stdlib Require Import ZArith NArith List String Ascii Bool Lia.
From Stdlib.Strings Require Import Byte.
From Stdlib Require Import DecimalString DecimalN DecimalZ.
Import ListNotations.
Open Scope string_scope.

(** ** JavaScript values and thrown errors *)

(** The values the provider may hand back and the module stores in
    [secret] without looking at them. *)
Inductive value : Type :=
| VUndefined
| VNull
| VBool (b : bool)
| VNumber (z : Z)
| VNaN
| VString (s : string)
| VBuffer (bytes : list byte).

(** ECMAScript ToBoolean, the test behind [!secret]. *)
Definition ToBoolean (v : value) : bool :=
  match v with
  | VUndefined | VNull | VNaN => false
  | VBool b => b
  | VNumber z => negb (z =? 0)%Z
  | VString s => match s with EmptyString => false | String _ _ => true end
  | VBuffer _ => true
  end.

(** A thrown value: an [Error] object with its message, or anything else a
    collaborator throws. *)
Inductive exn (F : Type) : Type :=
| Error (message : string)
| Thrown (x : F).
Arguments Error {F} message.
Arguments Thrown {F} x.

Inductive result (E A : Type) : Type :=
| Ok (a : A)
| Throw (e : E).
Arguments Ok {E A} a.
Arguments Throw {E A} e.

Definition bindR {E A B} (r : result E A) (k : A -> result E B) : result E B :=
  match r with
  | Ok a => k a
  | Throw e => Throw e
  end.

Notation "'let?' x := r 'in' k" := (bindR r (fun x => k))
  (at level 10, x name, r at level 100, k at level 200).

Definition is_ok {E A} (r : result E A) : bool :=
  match r with Ok _ => true | Throw _ => false end.

(** Default parameter values: [f(x = d)] takes [d] when the argument is
    omitted. *)
Definition default {A} (d : A) (o : option A) : A :=
  match o with Some a => a | None => d end.

(** ** The imported interfaces *)

Class Collaborators : Type := {
  (** thrown values that are not plain [Error] objects *)
  Foreign : Type;
  (** the state of everything outside the module: the identity provider,
      the user in front of the login modal *)
  Outside : Type;
  Web3Auth : Type;
  ChainConfig : Type;
  PrivateKeyProvider : Type;
  Adapter : Type;
  Seed : Type;
  HDKey : Type;
  KeyBytes : Type;
  (** [AB_WEB3AUTH_CONF.AB_testnet] of utils/web3auth.constants.js *)
  AB_testnet : ChainConfig;
  (** [new CommonPrivateKeyProvider({config: {chainConfig}})] *)
  new_CommonPrivateKeyProvider :
    ChainConfig -> Outside -> result (exn Foreign) PrivateKeyProvider * Outside;
  (** [new OpenloginAdapter({privateKeyProvider})] *)
  new_OpenloginAdapter :
    PrivateKeyProvider -> Outside -> result (exn Foreign) Adapter * Outside;
  (** [new window.Modal.Web3Auth({clientId, chainConfig, web3AuthNetwork,
      authMode})] *)
  new_Web3Auth :
    string -> ChainConfig -> string -> string ->
    Outside -> result (exn Foreign) Web3Auth * Outside;
  configureAdapter :
    Web3Auth -> Adapter -> Outside -> result (exn Foreign) unit * Outside;
  initModal : Web3Auth -> Outside -> result (exn Foreign) unit * Outside;
  connect : Web3Auth -> Outside -> result (exn Foreign) unit * Outside;
  (** [web3auth.provider.request({method})] *)
  provider_request :
    Web3Auth -> string -> Outside -> result (exn Foreign) value * Outside;
  logout : Web3Auth -> Outside -> result (exn Foreign) unit * Outside;
  (** bip39 *)
  entropyToMnemonic : value -> result (exn Foreign) string;
  mnemonicToSeedSync : string -> result (exn Foreign) Seed;
  (** @scure/bip32 *)
  fromMasterSeed : Seed -> result (exn Foreign) HDKey;
  derive : HDKey -> string -> result (exn Foreign) HDKey;
  privateKey : HDKey -> KeyBytes;
  publicKey : HDKey -> KeyBytes
}.

(** ** The module *)

(** The calls the module makes to its collaborators, in order. *)
Inductive call : Type :=
| CallNewPrivateKeyProvider
| CallNewAdapter
| CallNewWeb3Auth
| CallConfigureAdapter
| CallInitModal
| CallConnect
| CallRequest (method : string)
| CallLogout.

Section Module.
Context {C : Collaborators}.

Definition error : Type := exn Foreign.

Record world : Type := World {
  web3auth : option Web3Auth;   (* let web3auth = null *)
  secret : value;               (* let secret = null *)
  outside : Outside;
  calls : list call
}.

(** The module as loaded. *)
Definition loaded (o : Outside) : world :=
  {| web3auth := None; secret := VNull; outside := o; calls := [] |}.

(** State and exceptions: a throw keeps the assignments made before it. *)
Definition M (A : Type) : Type := world -> result error A * world.

Definition ret {A} (a : A) : M A := fun w => (Ok a, w).
Definition throw {A} (e : error) : M A := fun w => (Throw e, w).
Definition bind {A B} (m : M A) (k : A -> M B) : M B :=
  fun w => match m w with
           | (Ok a, w') => k a w'
           | (Throw e, w') => (Throw e, w')
           end.

Notation "x <- m ;; k" := (bind m (fun x => k))
  (at level 61, m at next level, right associativity).
Notation "m ;; k" := (bind m (fun _ => k))
  (at level 61, right associativity).

Definition read_web3auth : M (option Web3Auth) := fun w => (Ok (web3auth w), w).
Definition set_web3auth (c : option Web3Auth) : M unit :=
  fun w => (Ok tt, {| web3auth := c; secret := secret w;
                      outside := outside w; calls := calls w |}).
Definition set_secret (v : value) : M unit :=
  fun w => (Ok tt, {| web3auth := web3auth w; secret := v;
                      outside := outside w; calls := calls w |}).

(** A call to a collaborator: logged, and run against the outside. *)
Definition external {A} (c : call)
    (f : Outside -> result error A * Outside) : M A :=
  fun w => let (r, o) := f (outside w) in
           (r, {| web3auth := web3auth w; secret := secret w;
                  outside := o; calls := calls w ++ [c] |}).

Definition NotInitializedError : error :=
  Error "Web3auth was not initialized. Initialize web3auth first.".
Definition SecretNotRecoveredError : error :=
  Error "Something is wrong: the entropy was not recovered.".

Definition init (api_key : string) (chainConfig : option ChainConfig)
    (network : option string) : M unit :=
  let chainConfig := default AB_testnet chainConfig in
  let network := default "sapphire_devnet" network in
  let clientId := api_key in
  privateKeyProvider <-
    external CallNewPrivateKeyProvider
      (new_CommonPrivateKeyProvider chainConfig) ;;
  openloginAdapter <-
    external CallNewAdapter (new_OpenloginAdapter privateKeyProvider) ;;
  client <-
    external CallNewWeb3Auth
      (new_Web3Auth clientId chainConfig network "WALLET") ;;
  set_web3auth (Some client) ;;
  (* from here on [web3auth] is [client] *)
  external CallConfigureAdapter (configureAdapter client openloginAdapter) ;;
  external CallInitModal (initModal client).

Definition recoverSecret : M bool :=
  w3a <- read_web3auth ;;
  match w3a with
  | None => throw NotInitializedError
  | Some client =>
      external CallConnect (connect client) ;;
      v <- external (CallRequest "private_key")
             (provider_request client "private_key") ;;
      set_secret v ;;
      ret true
  end.

Definition forgetSecret : M unit :=
  w3a <- read_web3auth ;;
  match w3a with
  | None => throw NotInitializedError
  | Some client =>
      external CallLogout (logout client) ;;
      set_secret VNull
  end.

(** The accessors only read the two variables. *)
Definition getEntropy (w : world) : result error value :=
  match web3auth w with
  | None => Throw NotInitializedError
  | Some _ =>
      if negb (ToBoolean (secret w)) then Throw SecretNotRecoveredError
      else Ok (secret w)
  end.

Definition getMnemonic (w : world) : result error string :=
  let? e := getEntropy w in entropyToMnemonic e.

Definition getSeed (w : world) : result error Seed :=
  let? m := getMnemonic w in mnemonicToSeedSync m.

Definition getMasterKey (w : world) : result error HDKey :=
  let? s := getSeed w in fromMasterSeed s.

(** [Number.MAX_SAFE_INTEGER]: up to it every integer is a number of its
    own, and prints as its decimal digits. *)
Definition MAX_SAFE_INTEGER : Z := 2 ^ 53 - 1.

(** [`${accountIndex}`] for an integer-valued number: its decimal digits,
    with a sign when negative.  Account indices are integers here; beyond
    [MAX_SAFE_INTEGER] a JavaScript number prints other digits, so what is
    proved about the path string is proved for indices of magnitude up to
    [MAX_SAFE_INTEGER]. *)
Definition Number_toString (z : Z) : string :=
  NilZero.string_of_int (Z.to_int z).

(** [`m/44'/634'/${accountIndex}'/0/0`] *)
Definition hdPath (accountIndex : Z) : string :=
  "m/44'/634'/" ++ Number_toString accountIndex ++ "'/0/0".

Definition getPrivateKey (accountIndex : option Z) (w : world)
    : result error HDKey :=
  let accountIndex := default 0%Z accountIndex in
  let? masterKey := getMasterKey w in
  derive masterKey (hdPath accountIndex).

Definition getPrivateKeyBytes (accountIndex : option Z) (w : world)
    : result error KeyBytes :=
  let accountIndex := default 0%Z accountIndex in
  let? priv_key := getPrivateKey (Some accountIndex) w in
  Ok (privateKey priv_key).

Definition getPublicKeyBytes (accountIndex : option Z) (w : world)
    : result error KeyBytes :=
  let accountIndex := default 0%Z accountIndex in
  let? priv_key := getPrivateKey (Some accountIndex) w in
  Ok (publicKey priv_key).

(** ** Sequences of operations *)

Inductive op : Type :=
| OpInit (api_key : string) (chainConfig : option ChainConfig)
         (network : option string)
| OpRecoverSecret
| OpForgetSecret.

(** The variables and the outside after one operation, whether it returned
    or threw. *)
Definition after (o : op) (w : world) : world :=
  match o with
  | OpInit k c n => snd (init k c n w)
  | OpRecoverSecret => snd (recoverSecret w)
  | OpForgetSecret => snd (forgetSecret w)
  end.

(** [recoverSecret] ran and returned. *)
Definition recovered (o : op) (w : world) : bool :=
  match o with
  | OpRecoverSecret => is_ok (fst (recoverSecret w))
  | _ => false
  end.

Definition is_init (o : op) : bool :=
  match o with OpInit _ _ _ => true | _ => false end.

Fixpoint run (ops : list op) (w : world) : world :=
  match ops with
  | [] => w
  | o :: rest => run rest (after o w)
  end.

(** No [recoverSecret] of the run returned. *)
Fixpoint no_recovery (ops : list op) (w : world) : bool :=
  match ops with
  | [] => true
  | o :: rest => negb (recovered o w) && no_recovery rest (after o w)
  end.

Definition no_init (ops : list op) : bool :=
  forallb (fun o => negb (is_init o)) ops.

(** [init] ran and returned. *)
Definition initialized (o : op) (w : world) : bool :=
  match o with
  | OpInit k c n => is_ok (fst (init k c n w))
  | _ => false
  end.

(** Some [init] of the run returned. *)
Fixpoint init_returned (ops : list op) (w : world) : bool :=
  match ops with
  | [] => false
  | o :: rest => initialized o w || init_returned rest (after o w)
  end.

(** All seven accessors throw [e], whatever the account index. *)
Definition accessors_throw (w : world) (e : error) : Prop :=
  getEntropy w = Throw e /\
  getMnemonic w = Throw e /\
  getSeed w = Throw e /\
  getMasterKey w = Throw e /\
  (forall i, getPrivateKey i w = Throw e) /\
  (forall i, getPrivateKeyBytes i w = Throw e) /\
  (forall i, getPublicKeyBytes i w = Throw e).

(** The chain the specification describes, as a function of the entropy
    and the account index alone: entropy, mnemonic, seed, master key,
    child key. *)
Definition deriveChain (entropy : value) (accountIndex : Z)
    : result error HDKey :=
  let? mnemonic := entropyToMnemonic entropy in
  let? seed := mnemonicToSeedSync mnemonic in
  let? master := fromMasterSeed seed in
  derive master (hdPath accountIndex).

End Module.

(** ** Strings *)

(** [s.split(c)] for a one-character separator. *)
Fixpoint split_on (c : ascii) (s : string) : list string :=
  match s with
  | EmptyString => [EmptyString]
  | String a rest =>
      if Ascii.eqb a c then EmptyString :: split_on c rest
      else match split_on c rest with
           | [] => [String a EmptyString]
           | h :: t => String a h :: t
           end
  end.

(** The character [c] does not occur in [s]. *)
Fixpoint lacks (c : ascii) (s : string) : bool :=
  match s with
  | EmptyString => true
  | String a rest => negb (Ascii.eqb a c) && lacks c rest
  end.

(** No string occurs twice in [l]. *)
Fixpoint distinct (l : list string) : bool :=
  match l with
  | [] => true
  | x :: rest => negb (existsb (String.eqb x) rest) && distinct rest
  end.

(** ** Path notation *)

(** Modelled from the spec: how the HD library reads a path string (the
    package @scure/bip32 is imported by the module, its code is not part of
    the repository).  Segments are separated by [/] after a leading [m]; a
    segment is a decimal number below 2^31, and a trailing apostrophe marks
    it hardened.  A string that is not of this form is not a path: the
    library throws on it. *)
Module Path.

Inductive segment : Type :=
| Normal (n : N)
| Hardened (n : N).

(** The first index that is out of range: hardened child numbers start
    here. *)
Definition HARDENED_OFFSET : N := 2 ^ 31.

(** The digits of a segment, and whether an apostrophe follows them. *)
Fixpoint unquote (s : string) : string * bool :=
  match s with
  | EmptyString => (EmptyString, false)
  | String a EmptyString =>
      if Ascii.eqb a "'" then (EmptyString, true)
      else (String a EmptyString, false)
  | String a rest => let (d, h) := unquote rest in (String a d, h)
  end.

Definition parse_segment (s : string) : option segment :=
  let (digits, hardened) := unquote s in
  match NilZero.uint_of_string digits with
  | Some d =>
      if (N.of_uint d <? HARDENED_OFFSET)%N
      then Some (if hardened then Hardened (N.of_uint d)
                 else Normal (N.of_uint d))
      else None
  | None => None
  end.

Fixpoint parse_segments (l : list string) : option (list segment) :=
  match l with
  | [] => Some []
  | s :: rest =>
      match parse_segment s, parse_segments rest with
      | Some x, Some xs => Some (x :: xs)
      | _, _ => None
      end
  end.

(** Modelled from the spec: the segments a path string stands for, as the
    HD library's [derive] reads it. *)
Definition parse (path : string) : option (list segment) :=
  match split_on "/" path with
  | "m" :: segments => parse_segments segments
  | _ => None
  end.

End Path.

Section PathLaw.
Context {C : Collaborators}.



End PathLaw.

(** ** Mnemonic encoding *)

(** Modelled from the spec: the mnemonic encoding of entropy and its
    inverse (the package bip39 is imported by the module, its code is not
    part of the repository).  The entropy bits are followed by a checksum,
    the first ENT/32 bits of the SHA-256 digest of the entropy; the result
    is cut into groups of 11 bits, and each group selects a word of a list
    of 2048 words; the words are joined by single spaces.  The digest and
    the word list are parameters. *)
Module Bip39.

Inductive error : Type :=
| InvalidEntropyLengthError
| InvalidMnemonicError
| InvalidChecksumError.

(** The [k] low bits of [n], most significant first. *)
Fixpoint N_to_bits (k : nat) (n : N) : list bool :=
  match k with
  | O => []
  | S k' => N.testbit n (N.of_nat k') :: N_to_bits k' n
  end.

(** A bit sequence read as a binary numeral, most significant first. *)
Definition bits_to_N (l : list bool) : N :=
  fold_left (fun acc b => (2 * acc + N.b2n b)%N) l 0%N.

Definition byte_to_bits (b : byte) : list bool := N_to_bits 8 (Byte.to_N b).

Definition bits_to_byte (l : list bool) : byte :=
  match Byte.of_N (bits_to_N l) with
  | Some b => b
  | None => x00
  end.

Definition bytes_to_bits (l : list byte) : list bool :=
  flat_map byte_to_bits l.

Fixpoint chunks_fuel {A} (fuel k : nat) (l : list A) : list (list A) :=
  match fuel with
  | O => []
  | S fuel' =>
      match l with
      | [] => []
      | _ :: _ => firstn k l :: chunks_fuel fuel' k (skipn k l)
      end
  end.

(** Consecutive groups of [k] elements, the last one possibly shorter. *)
Definition chunks {A} (k : nat) (l : list A) : list (list A) :=
  chunks_fuel (List.length l) k l.

Fixpoint index_of (w : string) (l : list string) : option nat :=
  match l with
  | [] => None
  | x :: rest =>
      if String.eqb x w then Some O
      else match index_of w rest with
           | Some i => Some (S i)
           | None => None
           end
  end.

Fixpoint indices (l : list string) (ws : list string) : option (list nat) :=
  match ws with
  | [] => Some []
  | w :: rest =>
      match index_of w l, indices l rest with
      | Some i, Some rest_idx => Some (i :: rest_idx)
      | _, _ => None
      end
  end.

Section Encoding.
Variable sha256 : list byte -> list byte.
Variable wordlist : list string.

(** The first ENT/32 bits of the digest. *)
Definition checksum_bits (entropy : list byte) : list bool :=
  firstn (List.length entropy * 8 / 32) (bytes_to_bits (sha256 entropy)).

Definition word_of (group : list bool) : string :=
  nth (N.to_nat (bits_to_N group)) wordlist EmptyString.

Definition bad_length (n : nat) : bool :=
  (n <? 16)%nat || (32 <? n)%nat || negb (n mod 4 =? 0)%nat.

(** Modelled from the spec: bip39's [entropyToMnemonic], on the bytes of
    the entropy. *)
Definition entropyToMnemonic (entropy : list byte) : result error string :=
  if bad_length (List.length entropy) then Throw InvalidEntropyLengthError
  else
    let bits := (bytes_to_bits entropy ++ checksum_bits entropy)%list in
    Ok (String.concat " " (map word_of (chunks 11 bits))).

(** Modelled from the spec: bip39's [mnemonicToEntropy], the inverse; the
    words are plain ASCII, which its normalisation step leaves alone. *)
Definition mnemonicToEntropy (mnemonic : string) : result error (list byte) :=
  let words := split_on " " mnemonic in
  if negb (List.length words mod 3 =? 0)%nat then Throw InvalidMnemonicError
  else
    match indices wordlist words with
    | None => Throw InvalidMnemonicError
    | Some idx =>
        let bits := flat_map (fun i => N_to_bits 11 (N.of_nat i)) idx in
        let divider := (List.length bits / 33 * 32)%nat in
        let entropy := map bits_to_byte (chunks 8 (firstn divider bits)) in
        let checksum := skipn divider bits in
        if bad_length (List.length entropy) then Throw InvalidEntropyLengthError
        else if list_eq_dec Bool.bool_dec (checksum_bits entropy) checksum
             then Ok entropy
             else Throw InvalidChecksumError
    end.

End Encoding.
End Bip39.

(** ** A scripted instance of the interfaces

    The outside is a script: the outcomes of the collaborators' calls, in
    the order the calls are made (a call past the end of the script
    returns).  The derivation functions build the term they stand for, so
    that a result shows the chain that produced it. *)
Module Scripted.

Definition script : Type := list (result (exn string) value).

Definition next {A} (f : value -> A) (s : script)
    : result (exn string) A * script :=
  match s with
  | [] => (Ok (f VUndefined), [])
  | Ok v :: rest => (Ok (f v), rest)
  | Throw e :: rest => (Throw e, rest)
  end.

Definition mnemonic_of (v : value) : result (exn string) string :=
  match v with
  | VString s => Ok ("words(" ++ s ++ ")")
  | _ => Throw (Error "Invalid entropy")
  end.

#[export] Instance collaborators : Collaborators := {|
  Foreign := string;
  Outside := script;
  Web3Auth := string;
  ChainConfig := string;
  PrivateKeyProvider := string;
  Adapter := string;
  Seed := string;
  HDKey := string;
  KeyBytes := string;
  AB_testnet := "AB_testnet";
  new_CommonPrivateKeyProvider := fun cfg =>
    next (fun _ => "provider(" ++ cfg ++ ")");
  new_OpenloginAdapter := fun p => next (fun _ => "adapter(" ++ p ++ ")");
  new_Web3Auth := fun id cfg net mode =>
    next (fun _ =>
            "client(" ++ id ++ "," ++ cfg ++ "," ++ net ++ "," ++ mode ++ ")");
  configureAdapter := fun _ _ => next (fun _ => tt);
  initModal := fun _ => next (fun _ => tt);
  connect := fun _ => next (fun _ => tt);
  provider_request := fun _ _ => next (fun v => v);
  logout := fun _ => next (fun _ => tt);
  entropyToMnemonic := mnemonic_of;
  mnemonicToSeedSync := fun m => Ok ("seed(" ++ m ++ ")");
  fromMasterSeed := fun s => Ok ("master(" ++ s ++ ")");
  derive := fun k path => Ok ("derive(" ++ k ++ "," ++ path ++ ")");
  privateKey := fun k => "privateKey(" ++ k ++ ")";
  publicKey := fun k => "publicKey(" ++ k ++ ")"
|}.

(** The module with a client in [web3auth], [v] in [secret] and the
    script [s] ahead. *)
Definition session (s : script) (v : value) : world :=
  {| web3auth := Some "client"; secret := v; outside := s; calls := [] |}.

(** The module as loaded, with the script [s] ahead. *)
Definition fresh (s : script) : world := loaded (C := collaborators) s.

(** The five calls of [init] return, then the login modal is closed. *)
Definition login_cancelled : script :=
  [Ok VUndefined; Ok VUndefined; Ok VUndefined; Ok VUndefined; Ok VUndefined;
   Throw (Error "user closed the modal")].

(** [logout] returns, the five calls of [init] return, then the login
    modal is closed. *)
Definition logout_then_cancelled : script := Ok VUndefined :: login_cancelled.

(** A word list of 2048 distinct words, and a digest of 32 bytes, to run
    the mnemonic encoding on. *)
Definition words : list string :=
  map (fun i => "w" ++ NilZero.string_of_uint (Nat.to_uint i)) (seq 0 2048).

Definition digest (l : list byte) : list byte :=
  firstn 32 (l ++ repeat x00 32)%list.

Definition entropy16 : list byte :=
  [x00; x01; x02; x03; x04; x05; x06; x07;
   x08; x09; x0a; x0b; x0c; x0d; x0e; x0f].

End Scripted.

(** ** A scripted instance with the libraries' checks

    Modelled from the spec: as [Scripted], with the two checks the
    libraries make on their input.  [entropyToMnemonic] is the mnemonic
    encoding of [Bip39], on a buffer or on the bytes a hexadecimal string
    stands for, and throws on entropy of a wrong length; [derive] throws on
    a string that is not a path. *)
Module Checked.

Definition hex_value (a : ascii) : option N :=
  let n := N_of_ascii a in
  if ((48 <=? n) && (n <=? 57))%N then Some (n - 48)%N
  else if ((97 <=? n) && (n <=? 102))%N then Some (n - 87)%N
  else if ((65 <=? n) && (n <=? 70))%N then Some (n - 55)%N
  else None.

(** [Buffer.from(s, 'hex')]: pairs of hexadecimal digits, up to the first
    pair that is not one. *)
Fixpoint from_hex (s : string) : list byte :=
  match s with
  | String a (String b rest) =>
      match hex_value a, hex_value b with
      | Some x, Some y =>
          match Byte.of_N (16 * x + y) with
          | Some c => c :: from_hex rest
          | None => []
          end
      | _, _ => []
      end
  | _ => []
  end.

Definition entropy_bytes (v : value) : option (list byte) :=
  match v with
  | VString s => Some (from_hex s)
  | VBuffer bytes => Some bytes
  | _ => None
  end.

Definition mnemonic_of (v : value) : result (exn string) string :=
  match entropy_bytes v with
  | Some bytes =>
      match Bip39.entropyToMnemonic Scripted.digest Scripted.words bytes with
      | Ok mnemonic => Ok mnemonic
      | Throw _ => Throw (Error "Invalid entropy")
      end
  | None => Throw (Error "Invalid entropy")
  end.

Definition derive_of (key path : string) : result (exn string) string :=
  match Path.parse path with
  | Some _ => Ok ("derive(" ++ key ++ "," ++ path ++ ")")
  | None => Throw (Error "Invalid index")
  end.

Definition collaborators : Collaborators := {|
  Foreign := string;
  Outside := Scripted.script;
  Web3Auth := string;
  ChainConfig := string;
  PrivateKeyProvider := string;
  Adapter := string;
  Seed := string;
  HDKey := string;
  KeyBytes := string;
  AB_testnet := "AB_testnet";
  new_CommonPrivateKeyProvider := fun cfg =>
    Scripted.next (fun _ => "provider(" ++ cfg ++ ")");
  new_OpenloginAdapter := fun p =>
    Scripted.next (fun _ => "adapter(" ++ p ++ ")");
  new_Web3Auth := fun id cfg net mode =>
    Scripted.next
      (fun _ =>
         "client(" ++ id ++ "," ++ cfg ++ "," ++ net ++ "," ++ mode ++ ")");
  configureAdapter := fun _ _ => Scripted.next (fun _ => tt);
  initModal := fun _ => Scripted.next (fun _ => tt);
  connect := fun _ => Scripted.next (fun _ => tt);
  provider_request := fun _ _ => Scripted.next (fun v => v);
  logout := fun _ => Scripted.next (fun _ => tt);
  entropyToMnemonic := mnemonic_of;
  mnemonicToSeedSync := fun m => Ok ("seed(" ++ m ++ ")");
  fromMasterSeed := fun s => Ok ("master(" ++ s ++ ")");
  derive := derive_of;
  privateKey := fun k => "privateKey(" ++ k ++ ")";
  publicKey := fun k => "publicKey(" ++ k ++ ")"
|}.

(** The module with a client in [web3auth] and [v] in [secret]. *)
Definition session (v : value) : world (C := collaborators) :=
  @World collaborators (Some "client") v [] [].


(** Sixteen bytes, 00 to 0f. *)
Definition entropy : value := VString "000102030405060708090a0b0c0d0e0f".

End Checked.

(** * Splitting strings *)

Section StringFacts.

Lemma split_on_nonempty (c : ascii) (s : string) : split_on c s <> [].
Proof.
  induction s as [|a s IH]; simpl; [discriminate|].
  destruct (Ascii.eqb a c); [discriminate|].
  destruct (split_on c s); [contradiction|discriminate].
Qed.

(** A prefix without the separator stays in front of the first piece. *)
Lemma split_on_app (c : ascii) (s t : string) :
  lacks c s = true ->
  split_on c (s ++ t) =
    match split_on c t with
    | h :: r => (s ++ h) :: r
    | [] => [s]
    end.
Proof.
  induction s as [|a s IH]; simpl; intros H.
  - destruct (split_on c t) eqn:E; [|reflexivity].
    now apply split_on_nonempty in E.
  - apply andb_true_iff in H as [Ha Hs]. apply negb_true_iff in Ha.
    rewrite Ha, (IH Hs). now destruct (split_on c t).
Qed.

Lemma append_empty_r (s : string) : s ++ "" = s.
Proof. induction s as [|a s IH]; simpl; [reflexivity|now rewrite IH]. Qed.

Lemma split_on_lacks (c : ascii) (s : string) :
  lacks c s = true -> split_on c s = [s].
Proof.
  intros H. rewrite <- (append_empty_r s) at 1.
  rewrite split_on_app by assumption. simpl. now rewrite append_empty_r.
Qed.

(** Joining words by spaces and splitting at spaces gives the words back. *)
Lemma split_concat (ws : list string) :
  ws <> [] -> Forall (fun w => lacks " " w = true) ws ->
  split_on " " (String.concat " " ws) = ws.
Proof.
  induction ws as [|w ws IH]; intros Hn Hs; [contradiction|].
  inversion Hs as [|? ? Hw Hws]; subst.
  destruct ws as [|w' ws].
  - simpl. now apply split_on_lacks.
  - change (String.concat " " (w :: w' :: ws))
      with (w ++ String " " (String.concat " " (w' :: ws))).
    rewrite split_on_app by assumption.
    cbn [split_on]. rewrite Ascii.eqb_refl.
    rewrite IH by (assumption || discriminate).
    now rewrite append_empty_r.
Qed.

Lemma distinct_NoDup (l : list string) : distinct l = true -> NoDup l.
Proof.
  induction l as [|x l IH]; simpl; intros H; constructor.
  - apply andb_true_iff in H as [H _]. apply negb_true_iff in H.
    intros Hin. assert (E : existsb (String.eqb x) l = true).
    { apply existsb_exists. exists x.
      split; [assumption|apply String.eqb_refl]. }
    congruence.
  - apply andb_true_iff in H as [_ H]. now apply IH.
Qed.

Lemma length_append (s t : string) :
  String.length (s ++ t) = (String.length s + String.length t)%nat.
Proof. induction s as [|a s IH]; simpl; [reflexivity|now rewrite IH]. Qed.

Lemma append_cancel_r (s1 s2 t : string) : s1 ++ t = s2 ++ t -> s1 = s2.
Proof.
  revert s2. induction s1 as [|a s1 IH]; intros [|b s2] H.
  - reflexivity.
  - apply (f_equal String.length) in H. simpl in H.
    rewrite length_append in H. lia.
  - apply (f_equal String.length) in H. simpl in H.
    rewrite length_append in H. lia.
  - simpl in H. injection H as -> H. f_equal. now apply IH.
Qed.

End StringFacts.

(** * Properties of the module *)

Section ModuleFacts.
Context {C : Collaborators}.

(** Unfolds an operation down to the calls it makes. *)
Ltac unfold_op :=
  unfold init, recoverSecret, forgetSecret, bind, external, read_web3auth,
    set_web3auth, set_secret, ret, throw.

(** Case analysis on the outcome of every collaborator call in sight. *)
Ltac outcomes :=
  repeat match goal with
         | |- context [let (_, _) := ?f (outside ?w) in _] =>
             destruct (f (outside w)) as [[?|?] ?] eqn:?; simpl
         | |- context [let (_, _) := ?f ?o in _] =>
             destruct (f o) as [[?|?] ?] eqn:?; simpl
         end.

Lemma getEntropy_uninitialized (w : world) :
  web3auth w = None -> getEntropy w = Throw NotInitializedError.
Proof. intros H. unfold getEntropy. now rewrite H. Qed.

Lemma getEntropy_no_secret (w : world) :
  web3auth w <> None -> ToBoolean (secret w) = false ->
  getEntropy w = Throw SecretNotRecoveredError.
Proof.
  intros Hc Hs. unfold getEntropy.
  destruct (web3auth w); [|congruence]. now rewrite Hs.
Qed.

Lemma accessors_throw_intro (w : world) (e : error) :
  getEntropy w = Throw e -> accessors_throw w e.
Proof.
  intros H.
  unfold accessors_throw, getPrivateKeyBytes, getPublicKeyBytes,
    getPrivateKey, getMasterKey, getSeed, getMnemonic.
  rewrite H. simpl. repeat split; reflexivity.
Qed.

(** [init] never touches [secret], and never resets [web3auth] to [null]. *)
Lemma init_secret k c n (w : world) : secret (snd (init k c n w)) = secret w.
Proof. unfold_op. simpl. outcomes; reflexivity. Qed.

Lemma init_web3auth k c n (w : world) :
  web3auth w <> None -> web3auth (snd (init k c n w)) <> None.
Proof. intros H. unfold_op. simpl. outcomes; (assumption || discriminate). Qed.

Lemma init_ok_web3auth k c n (w w' : world) :
  init k c n w = (Ok tt, w') -> web3auth w' <> None.
Proof.
  unfold_op. simpl. outcomes; intros H; inversion H; subst; simpl; discriminate.
Qed.

Lemma recoverSecret_web3auth (w : world) :
  web3auth (snd (recoverSecret w)) = web3auth w.
Proof.
  unfold_op. simpl. destruct (web3auth w) eqn:E; simpl; [|now rewrite E].
  outcomes; now rewrite E.
Qed.

Lemma recoverSecret_uninitialized (w : world) :
  web3auth w = None -> recoverSecret w = (Throw NotInitializedError, w).
Proof. intros H. unfold_op. simpl. now rewrite H. Qed.

Lemma recoverSecret_throws_secret (w : world) :
  is_ok (fst (recoverSecret w)) = false ->
  secret (snd (recoverSecret w)) = secret w.
Proof.
  unfold_op. simpl. destruct (web3auth w) eqn:E; simpl; [|reflexivity].
  outcomes; (reflexivity || discriminate).
Qed.

Lemma forgetSecret_web3auth (w : world) :
  web3auth (snd (forgetSecret w)) = web3auth w.
Proof.
  unfold_op. simpl. destruct (web3auth w) eqn:E; simpl; [|now rewrite E].
  outcomes; now rewrite E.
Qed.

Lemma forgetSecret_uninitialized (w : world) :
  web3auth w = None -> forgetSecret w = (Throw NotInitializedError, w).
Proof. intros H. unfold_op. simpl. now rewrite H. Qed.

Lemma forgetSecret_secret (w : world) :
  secret (snd (forgetSecret w)) = secret w \/
  secret (snd (forgetSecret w)) = VNull.
Proof.
  unfold_op. simpl. destruct (web3auth w) eqn:E; simpl; [|now left].
  outcomes; [now right | now left].
Qed.

(** What a run keeps. *)
Lemma after_web3auth (o : op) (w : world) :
  web3auth w <> None -> web3auth (after o w) <> None.
Proof.
  destruct o; simpl; intros H.
  - now apply init_web3auth.
  - now rewrite recoverSecret_web3auth.
  - now rewrite forgetSecret_web3auth.
Qed.

Lemma after_secret_null (o : op) (w : world) :
  recovered o w = false -> secret w = VNull -> secret (after o w) = VNull.
Proof.
  destruct o; simpl; intros Hr Hs.
  - now rewrite init_secret.
  - now rewrite recoverSecret_throws_secret.
  - destruct (forgetSecret_secret w) as [H|H]; congruence.
Qed.

Lemma run_web3auth (ops : list op) (w : world) :
  web3auth w <> None -> web3auth (run ops w) <> None.
Proof.
  revert w. induction ops as [|o ops IH]; simpl; intros w H; [assumption|].
  apply IH. now apply after_web3auth.
Qed.

Lemma run_secret_null (ops : list op) (w : world) :
  no_recovery ops w = true -> secret w = VNull -> secret (run ops w) = VNull.
Proof.
  revert w. induction ops as [|o ops IH]; simpl; intros w H Hs; [assumption|].
  apply andb_true_iff in H as [Hr Hn]. apply negb_true_iff in Hr.
  apply IH; [assumption|]. now apply after_secret_null.
Qed.

Lemma run_no_init (ops : list op) (w : world) :
  no_init ops = true -> web3auth w = None -> run ops w = w.
Proof.
  revert w. induction ops as [|o ops IH]; simpl; intros w H Hw; [reflexivity|].
  apply andb_true_iff in H as [Ho Hn].
  destruct o; simpl in *; try discriminate.
  - rewrite recoverSecret_uninitialized by assumption. simpl. now apply IH.
  - rewrite forgetSecret_uninitialized by assumption. simpl. now apply IH.
Qed.

Lemma run_init_returned (ops : list op) (w : world) :
  init_returned ops w = true -> web3auth (run ops w) <> None.
Proof.
  revert w. induction ops as [|o ops IH]; simpl; intros w H; [discriminate|].
  apply orb_true_iff in H as [H|H]; [|now apply IH].
  apply run_web3auth. destruct o; simpl in *; try discriminate.
  destruct (init api_key chainConfig network w) as [[[]|e] w'] eqn:E;
    simpl in *; [|discriminate].
  now apply init_ok_web3auth in E.
Qed.

Lemma forgetSecret_ok (w w' : world) :
  forgetSecret w = (Ok tt, w') -> web3auth w' <> None /\ secret w' = VNull.
Proof.
  unfold_op. simpl. destruct (web3auth w) eqn:E; simpl; [|discriminate].
  outcomes; intros H; inversion H; subst; simpl.
  split; [congruence|reflexivity].
Qed.

(** C2. Before initialization every accessor and derivation operation
    throws the not-initialized error; once initialized, and as long as no
    [recoverSecret] has returned, every one of them throws the
    secret-not-recovered error.  None of them returns a value, [null] and
    [undefined] included, in those states. *)
Theorem accessors_before_recovery (o : Outside) (ops : list op) :
  (no_init ops = true ->
   accessors_throw (run ops (loaded o)) NotInitializedError) /\
  (web3auth (run ops (loaded o)) = None ->
   accessors_throw (run ops (loaded o)) NotInitializedError) /\
  (no_recovery ops (loaded o) = true ->
   (init_returned ops (loaded o) = true ->
    accessors_throw (run ops (loaded o)) SecretNotRecoveredError) /\
   (web3auth (run ops (loaded o)) <> None ->
    accessors_throw (run ops (loaded o)) SecretNotRecoveredError)).
Proof.
  assert (Hnull : web3auth (run ops (loaded o)) = None ->
                  accessors_throw (run ops (loaded o)) NotInitializedError).
  { intros H. now apply accessors_throw_intro, getEntropy_uninitialized. }
  assert (Hrec : no_recovery ops (loaded o) = true ->
                 web3auth (run ops (loaded o)) <> None ->
                 accessors_throw (run ops (loaded o)) SecretNotRecoveredError).
  { intros Hn Hw.
    apply accessors_throw_intro, getEntropy_no_secret; [assumption|].
    rewrite (run_secret_null ops (loaded o) Hn eq_refl). reflexivity. }
  split; [|split; [assumption|]].
  - intros H. apply Hnull. now rewrite run_no_init.
  - intros Hn. split; [|now apply Hrec].
    intros Hi. apply Hrec; [assumption|]. now apply run_init_returned.
Qed.

(** C3. After a [forgetSecret] that returned, the secret is [null], and
    [getEntropy] and every derivation built on it throw the
    secret-not-recovered error after any further operations, until a
    [recoverSecret] returns. *)
Theorem forgetSecret_fails_closed (w w' : world) :
  forgetSecret w = (Ok tt, w') ->
  secret w' = VNull /\
  forall ops, no_recovery ops w' = true ->
              accessors_throw (run ops w') SecretNotRecoveredError.
Proof.
  intros H. apply forgetSecret_ok in H as [Hw Hs]. split; [assumption|].
  intros ops Hn. apply accessors_throw_intro, getEntropy_no_secret.
  - now apply run_web3auth.
  - now rewrite (run_secret_null ops w' Hn Hs).
Qed.

(** C4. The byte extractors return the [privateKey] and [publicKey] fields
    of the child key obtained by running the whole chain, entropy to
    mnemonic to seed to master key to child key, on the entropy stored at
    the time of the call: the result is a function of the two module
    variables and the account index alone, nothing else is kept between
    calls. *)
Theorem key_bytes_recomputed (i : option Z) (w : world) :
  getPrivateKeyBytes i w =
    (let? e := getEntropy w in
     let? k := deriveChain e (default 0%Z i) in Ok (privateKey k)) /\
  getPublicKeyBytes i w =
    (let? e := getEntropy w in
     let? k := deriveChain e (default 0%Z i) in Ok (publicKey k)) /\
  forall w2 : world,
    web3auth w2 <> None -> web3auth w <> None -> secret w2 = secret w ->
    getPrivateKeyBytes i w2 = getPrivateKeyBytes i w /\
    getPublicKeyBytes i w2 = getPublicKeyBytes i w.
Proof.
  assert (E : forall u : world,
             getPrivateKeyBytes i u =
               (let? e := getEntropy u in
                let? k := deriveChain e (default 0%Z i) in Ok (privateKey k)) /\
             getPublicKeyBytes i u =
               (let? e := getEntropy u in
                let? k := deriveChain e (default 0%Z i) in Ok (publicKey k))).
  { intros u.
    unfold getPrivateKeyBytes, getPublicKeyBytes, getPrivateKey, getMasterKey,
      getSeed, getMnemonic, deriveChain.
    destruct (getEntropy u) as [e|x]; simpl; [|split; reflexivity].
    destruct (entropyToMnemonic e) as [m|x]; simpl; [|split; reflexivity].
    destruct (mnemonicToSeedSync m) as [s|x]; simpl; [|split; reflexivity].
    destruct (fromMasterSeed s) as [mk|x]; simpl; split; reflexivity. }
  destruct (E w) as [E1 E2]. split; [assumption|]. split; [assumption|].
  intros w2 H2 H1 Hs. destruct (E w2) as [F1 F2].
  assert (G : getEntropy w2 = getEntropy w).
  { unfold getEntropy. rewrite Hs.
    destruct (web3auth w2), (web3auth w); congruence. }
  rewrite E1, E2, F1, F2, G. split; reflexivity.
Qed.

(** C6. Called while [web3auth] is [null], [recoverSecret] throws the
    not-initialized error and makes no call to the provider; called after
    initialization, when [connect] and the entropy request return, it
    stores the returned entropy in [secret] and returns [true]. *)
Theorem recoverSecret_contract (w : world) :
  (web3auth w = None -> recoverSecret w = (Throw NotInitializedError, w)) /\
  (forall client o1 o2 v,
     web3auth w = Some client ->
     connect client (outside w) = (Ok tt, o1) ->
     provider_request client "private_key" o1 = (Ok v, o2) ->
     recoverSecret w =
       (Ok true,
        {| web3auth := web3auth w; secret := v; outside := o2;
           calls := (calls w ++ [CallConnect]) ++
                    [CallRequest "private_key"] |})).
Proof.
  split; [apply recoverSecret_uninitialized|].
  intros client o1 o2 v Hw Hc Hr. destruct w as [wa s o c]. simpl in *.
  subst wa. unfold_op. simpl. rewrite Hc. simpl. rewrite Hr. reflexivity.
Qed.

(** C7. When the provider's [connect] or its entropy request throws during
    [recoverSecret], the caller gets that very error, and the two module
    variables are as they were before the call: the secret stored earlier,
    or its absence, is untouched.  So it is whenever [recoverSecret]
    throws. *)
Theorem recoverSecret_failure_keeps_state (w : world) (client : Web3Auth)
    (e : error) :
  web3auth w = Some client ->
  (forall o, connect client (outside w) = (Throw e, o) ->
     recoverSecret w =
       (Throw e,
        {| web3auth := web3auth w; secret := secret w; outside := o;
           calls := calls w ++ [CallConnect] |})) /\
  (forall o1 o2,
     connect client (outside w) = (Ok tt, o1) ->
     provider_request client "private_key" o1 = (Throw e, o2) ->
     recoverSecret w =
       (Throw e,
        {| web3auth := web3auth w; secret := secret w; outside := o2;
           calls := (calls w ++ [CallConnect]) ++
                    [CallRequest "private_key"] |})) /\
  (is_ok (fst (recoverSecret w)) = false ->
   web3auth (snd (recoverSecret w)) = web3auth w /\
   secret (snd (recoverSecret w)) = secret w).
Proof.
  intros Hw. split; [|split].
  - destruct w as [wa s o0 c]. simpl in *. subst wa.
    intros o Hc. unfold_op. simpl. rewrite Hc. reflexivity.
  - destruct w as [wa s o0 c]. simpl in *. subst wa.
    intros o1 o2 Hc Hr. unfold_op. simpl. rewrite Hc. simpl.
    rewrite Hr. reflexivity.
  - intros H. split; [apply recoverSecret_web3auth|].
    now apply recoverSecret_throws_secret.
Qed.

(** C8. When the provider's [logout] throws during [forgetSecret], called
    with the module initialized, the caller gets that error and [secret] is
    not cleared: it holds what it held, and [getEntropy] answers as before
    the call. *)
Theorem forgetSecret_logout_failure (w : world) (client : Web3Auth)
    (e : error) (o : Outside) :
  web3auth w = Some client ->
  logout client (outside w) = (Throw e, o) ->
  forgetSecret w =
    (Throw e,
     {| web3auth := web3auth w; secret := secret w; outside := o;
        calls := calls w ++ [CallLogout] |}) /\
  secret (snd (forgetSecret w)) = secret w /\
  getEntropy (snd (forgetSecret w)) = getEntropy w.
Proof.
  intros Hw Hl.
  assert (E : forgetSecret w =
    (Throw e,
     {| web3auth := web3auth w; secret := secret w; outside := o;
        calls := calls w ++ [CallLogout] |})).
  { destruct w as [wa s o0 c]. simpl in *. subst wa.
    unfold_op. simpl. rewrite Hl. reflexivity. }
  rewrite E. simpl. repeat split; reflexivity.
Qed.

(** C10. Some provider results, the empty string among them, make
    [recoverSecret] return [true] and yet leave every accessor throwing the
    secret-not-recovered error: this holds for every result that is falsy,
    because [getEntropy] tests the stored secret for truthiness. *)
Theorem falsy_secret_is_lost (w : world) (client : Web3Auth)
    (o1 o2 : Outside) (v : value) :
  web3auth w = Some client ->
  connect client (outside w) = (Ok tt, o1) ->
  provider_request client "private_key" o1 = (Ok v, o2) ->
  ToBoolean v = false ->
  ToBoolean (VString "") = false /\
  fst (recoverSecret w) = Ok true /\
  secret (snd (recoverSecret w)) = v /\
  accessors_throw (snd (recoverSecret w)) SecretNotRecoveredError.
Proof.
  intros Hw Hc Hr Hv.
  destruct (recoverSecret_contract w) as [_ H].
  rewrite (H client o1 o2 v Hw Hc Hr). simpl.
  split; [reflexivity|]. split; [reflexivity|]. split; [reflexivity|].
  apply accessors_throw_intro, getEntropy_no_secret; simpl;
    [congruence|assumption].
Qed.

(** ** More on the life cycle *)

Lemma after_client_implies_null (o : op) (w : world) :
  (web3auth w = None -> secret w = VNull) ->
  web3auth (after o w) = None -> secret (after o w) = VNull.
Proof.
  intros I H. destruct (web3auth w) eqn:E.
  - exfalso. apply (after_web3auth o w); [congruence|assumption].
  - destruct o; simpl in *.
    + rewrite init_secret. now apply I.
    + rewrite recoverSecret_uninitialized by assumption. now apply I.
    + rewrite forgetSecret_uninitialized by assumption. now apply I.
Qed.

Lemma run_client_implies_null (ops : list op) (w : world) :
  (web3auth w = None -> secret w = VNull) ->
  web3auth (run ops w) = None -> secret (run ops w) = VNull.
Proof.
  revert w. induction ops as [|o ops IH]; simpl; intros w I; [assumption|].
  apply IH. now apply after_client_implies_null.
Qed.

(** X1. [init] never changes [secret], whether it returns or throws: an
    entropy that [getEntropy] returned before a second [init] is still
    returned after it. *)
Theorem init_keeps_entropy (api_key : string) (chainConfig : option ChainConfig)
    (network : option string) (w : world) (entropy : value) :
  getEntropy w = Ok entropy ->
  secret (snd (init api_key chainConfig network w)) = secret w /\
  getEntropy (snd (init api_key chainConfig network w)) = Ok entropy.
Proof.
  intros H. split; [apply init_secret|].
  unfold getEntropy in *. rewrite init_secret.
  destruct (web3auth w) eqn:E; [|discriminate].
  assert (N : web3auth (snd (init api_key chainConfig network w)) <> None).
  { apply init_web3auth. congruence. }
  destruct (web3auth (snd (init api_key chainConfig network w)));
    [assumption|contradiction].
Qed.

(** X2. When its five calls return, [init] returns with [web3auth] set to
    the client built from the API key as client id, the chain configuration
    and the network, each defaulted when omitted, and the mode WALLET; the
    adapter configured on it wraps a provider of the same chain
    configuration; [secret] is as before. *)
Theorem init_contract (api_key : string) (chainConfig : option ChainConfig)
    (network : option string) (w : world)
    (provider : PrivateKeyProvider) (adapter : Adapter) (client : Web3Auth)
    (o1 o2 o3 o4 o5 : Outside) :
  new_CommonPrivateKeyProvider (default AB_testnet chainConfig) (outside w) =
    (Ok provider, o1) ->
  new_OpenloginAdapter provider o1 = (Ok adapter, o2) ->
  new_Web3Auth api_key (default AB_testnet chainConfig)
    (default "sapphire_devnet" network) "WALLET" o2 = (Ok client, o3) ->
  configureAdapter client adapter o3 = (Ok tt, o4) ->
  initModal client o4 = (Ok tt, o5) ->
  init api_key chainConfig network w =
    (Ok tt,
     {| web3auth := Some client; secret := secret w; outside := o5;
        calls := calls w ++
                 [CallNewPrivateKeyProvider; CallNewAdapter; CallNewWeb3Auth;
                  CallConfigureAdapter; CallInitModal] |}).
Proof.
  intros H1 H2 H3 H4 H5. destruct w as [wa s o c]. simpl in *.
  unfold_op. simpl. rewrite H1. simpl. rewrite H2. simpl. rewrite H3. simpl.
  rewrite H4. simpl. rewrite H5. simpl.
  rewrite <- !app_assoc. reflexivity.
Qed.

(** X3. When one of the three constructors throws, [init] throws that
    error, makes no further call, and leaves [web3auth] and [secret] as
    they were. *)
Theorem init_constructor_failure (api_key : string)
    (chainConfig : option ChainConfig) (network : option string) (w : world)
    (e : error) :
  (forall o,
     new_CommonPrivateKeyProvider (default AB_testnet chainConfig) (outside w)
       = (Throw e, o) ->
     init api_key chainConfig network w =
       (Throw e,
        {| web3auth := web3auth w; secret := secret w; outside := o;
           calls := calls w ++ [CallNewPrivateKeyProvider] |})) /\
  (forall provider o1 o,
     new_CommonPrivateKeyProvider (default AB_testnet chainConfig) (outside w)
       = (Ok provider, o1) ->
     new_OpenloginAdapter provider o1 = (Throw e, o) ->
     init api_key chainConfig network w =
       (Throw e,
        {| web3auth := web3auth w; secret := secret w; outside := o;
           calls := calls w ++
                    [CallNewPrivateKeyProvider; CallNewAdapter] |})) /\
  (forall provider adapter o1 o2 o,
     new_CommonPrivateKeyProvider (default AB_testnet chainConfig) (outside w)
       = (Ok provider, o1) ->
     new_OpenloginAdapter provider o1 = (Ok adapter, o2) ->
     new_Web3Auth api_key (default AB_testnet chainConfig)
       (default "sapphire_devnet" network) "WALLET" o2 = (Throw e, o) ->
     init api_key chainConfig network w =
       (Throw e,
        {| web3auth := web3auth w; secret := secret w; outside := o;
           calls := calls w ++
                    [CallNewPrivateKeyProvider; CallNewAdapter;
                     CallNewWeb3Auth] |})).
Proof.
  destruct w as [wa s o0 c]. simpl. split; [|split].
  - intros o H1. unfold_op. simpl. rewrite H1. reflexivity.
  - intros provider o1 o H1 H2. unfold_op. simpl. rewrite H1. simpl.
    rewrite H2. simpl. rewrite <- !app_assoc. reflexivity.
  - intros provider adapter o1 o2 o H1 H2 H3. unfold_op. simpl.
    rewrite H1. simpl. rewrite H2. simpl. rewrite H3. simpl.
    rewrite <- !app_assoc. reflexivity.
Qed.

(** X4. When the client is constructed and [configureAdapter] or
    [initModal] then throws, [init] throws that error with [web3auth]
    already set to the new client: from then on [getEntropy] no longer
    throws the not-initialized error. *)
Theorem init_late_failure (api_key : string)
    (chainConfig : option ChainConfig) (network : option string) (w : world)
    (provider : PrivateKeyProvider) (adapter : Adapter) (client : Web3Auth)
    (o1 o2 o3 : Outside) (e : error) :
  new_CommonPrivateKeyProvider (default AB_testnet chainConfig) (outside w) =
    (Ok provider, o1) ->
  new_OpenloginAdapter provider o1 = (Ok adapter, o2) ->
  new_Web3Auth api_key (default AB_testnet chainConfig)
    (default "sapphire_devnet" network) "WALLET" o2 = (Ok client, o3) ->
  (fst (configureAdapter client adapter o3) = Throw e \/
   exists o4,
     configureAdapter client adapter o3 = (Ok tt, o4) /\
     fst (initModal client o4) = Throw e) ->
  fst (init api_key chainConfig network w) = Throw e /\
  web3auth (snd (init api_key chainConfig network w)) = Some client /\
  secret (snd (init api_key chainConfig network w)) = secret w /\
  getEntropy (snd (init api_key chainConfig network w)) <>
    Throw NotInitializedError.
Proof.
  intros H1 H2 H3 H.
  assert (G : fst (init api_key chainConfig network w) = Throw e /\
              web3auth (snd (init api_key chainConfig network w)) =
                Some client).
  { destruct w as [wa s o c]. simpl in *. unfold_op. simpl.
    rewrite H1. simpl. rewrite H2. simpl. rewrite H3. simpl.
    destruct H as [H|(o4 & H4 & H5)].
    - destruct (configureAdapter client adapter o3) as [r o4]. simpl in H.
      subst r. simpl. split; reflexivity.
    - rewrite H4. simpl. destruct (initModal client o4) as [r o5].
      simpl in H5. subst r. simpl. split; reflexivity. }
  destruct G as [G1 G2]. split; [assumption|]. split; [assumption|].
  split; [apply init_secret|].
  unfold getEntropy. rewrite G2.
  destruct (negb (ToBoolean _)); discriminate.
Qed.

(** X5. Once [web3auth] is set, no sequence of operations, returning or
    throwing, makes it [null] again, and [getEntropy] never again throws
    the not-initialized error. *)
Theorem initialized_for_good (w : world) (ops : list op) :
  web3auth w <> None ->
  web3auth (run ops w) <> None /\
  getEntropy (run ops w) <> Throw NotInitializedError.
Proof.
  intros H. assert (N := run_web3auth ops w H). split; [assumption|].
  unfold getEntropy. destruct (web3auth (run ops w)); [|contradiction].
  destruct (negb (ToBoolean (secret (run ops w)))); discriminate.
Qed.

(** X6. In every state reached from the loaded module, whatever the
    operations and their outcomes, a [web3auth] that is [null] comes with a
    [secret] that is [null]: nothing is ever stored without a client. *)
Theorem no_secret_without_client (o : Outside) (ops : list op) :
  web3auth (run ops (loaded o)) = None ->
  secret (run ops (loaded o)) = VNull.
Proof. apply run_client_implies_null. reflexivity. Qed.

(** X7. [getEntropy] returns a value exactly when [web3auth] is set and the
    stored secret is truthy, and the value is that secret: what it returns
    is never [null], [undefined], an empty string, zero, NaN or false. *)
Theorem getEntropy_returns_iff (w : world) (v : value) :
  getEntropy w = Ok v <->
  web3auth w <> None /\ secret w = v /\ ToBoolean v = true.
Proof.
  unfold getEntropy. split.
  - destruct (web3auth w); [|discriminate].
    destruct (ToBoolean (secret w)) eqn:T; simpl; [|discriminate].
    intros [= <-]. repeat split; [discriminate|assumption].
  - intros (H & <- & T). destruct (web3auth w); [|contradiction].
    now rewrite T.
Qed.

(** X8. A [recoverSecret] that returns replaces whatever was stored: when
    the provider hands back a truthy value, [getEntropy] returns exactly
    that value afterwards, whatever [secret] held before. *)
Theorem recovered_entropy_is_returned (w : world) (client : Web3Auth)
    (o1 o2 : Outside) (v : value) :
  web3auth w = Some client ->
  connect client (outside w) = (Ok tt, o1) ->
  provider_request client "private_key" o1 = (Ok v, o2) ->
  ToBoolean v = true ->
  fst (recoverSecret w) = Ok true /\
  getEntropy (snd (recoverSecret w)) = Ok v.
Proof.
  intros Hw Hc Hr Hv. destruct w as [wa s o c]. simpl in *. subst wa.
  unfold_op. simpl. rewrite Hc. simpl. rewrite Hr. simpl.
  split; [reflexivity|]. unfold getEntropy. simpl. now rewrite Hv.
Qed.

(** X9. [forgetSecret] called while [web3auth] is [null] throws the
    not-initialized error without calling [logout]; called with a client
    whose [logout] returns, it returns with [secret] set to [null] and
    [web3auth] kept, whether or not a secret was held. *)
Theorem forgetSecret_contract (w : world) :
  (web3auth w = None -> forgetSecret w = (Throw NotInitializedError, w)) /\
  (forall client o,
     web3auth w = Some client ->
     logout client (outside w) = (Ok tt, o) ->
     forgetSecret w =
       (Ok tt,
        {| web3auth := web3auth w; secret := VNull; outside := o;
           calls := calls w ++ [CallLogout] |})).
Proof.
  split; [apply forgetSecret_uninitialized|].
  intros client o Hw Hl. destruct w as [wa s o0 c]. simpl in *. subst wa.
  unfold_op. simpl. rewrite Hl. reflexivity.
Qed.

(** X10. After a [forgetSecret] that returns, [recoverSecret] works on the
    same client with no [init] in between: when [logout], [connect] and the
    entropy request return, [getEntropy] returns the newly recovered value,
    if truthy. *)
Theorem forget_then_recover (w : world) (client : Web3Auth)
    (o1 o2 o3 : Outside) (v : value) :
  web3auth w = Some client ->
  logout client (outside w) = (Ok tt, o1) ->
  connect client o1 = (Ok tt, o2) ->
  provider_request client "private_key" o2 = (Ok v, o3) ->
  ToBoolean v = true ->
  getEntropy (run [OpForgetSecret; OpRecoverSecret] w) = Ok v.
Proof.
  intros Hw Hl Hc Hr Hv. destruct w as [wa s o c]. simpl in *. subst wa.
  unfold_op. simpl. rewrite Hl. simpl. rewrite Hc. simpl. rewrite Hr. simpl.
  unfold getEntropy. simpl. now rewrite Hv.
Qed.

(** X11. An error thrown at one stage of the chain is the error of every
    later stage: from [getEntropy] to [getMnemonic], to [getSeed], to
    [getMasterKey], to [getPrivateKey] at any index, to both byte
    extractors. *)
Theorem failure_propagates (w : world) (e : error) :
  (getEntropy w = Throw e -> getMnemonic w = Throw e) /\
  (getMnemonic w = Throw e -> getSeed w = Throw e) /\
  (getSeed w = Throw e -> getMasterKey w = Throw e) /\
  (getMasterKey w = Throw e -> forall i, getPrivateKey i w = Throw e) /\
  (forall i, getPrivateKey i w = Throw e ->
             getPrivateKeyBytes i w = Throw e /\
             getPublicKeyBytes i w = Throw e).
Proof.
  repeat split.
  - intros H. unfold getMnemonic. now rewrite H.
  - intros H. unfold getSeed. now rewrite H.
  - intros H. unfold getMasterKey. now rewrite H.
  - intros H i. unfold getPrivateKey. now rewrite H.
  - unfold getPrivateKeyBytes.
    change (getPrivateKey (Some (default 0%Z i)) w) with (getPrivateKey i w).
    now rewrite H.
  - unfold getPublicKeyBytes.
    change (getPrivateKey (Some (default 0%Z i)) w) with (getPrivateKey i w).
    now rewrite H.
Qed.

End ModuleFacts.

(** * The derivation path *)

Section PathFacts.
Context {C : Collaborators}.

Lemma unquote_app (s : string) : Path.unquote (s ++ "'") = (s, true).
Proof.
  induction s as [|a s IH]; [reflexivity|].
  destruct s as [|b s]; [reflexivity|].
  change (Path.unquote (String a (String b s) ++ "'"))
    with (let (d, h) := Path.unquote (String b s ++ "'") in (String a d, h)).
  now rewrite IH.
Qed.

Lemma digits_lack_slash (d : Decimal.uint) :
  lacks "/" (NilEmpty.string_of_uint d) = true.
Proof. induction d; simpl; auto. Qed.

Lemma decimal_lacks_slash (n : N) :
  lacks "/" (NilZero.string_of_uint (N.to_uint n)) = true.
Proof.
  destruct (N.to_uint n) eqn:E; try (rewrite <- E; clear E);
    try reflexivity;
    unfold NilZero.string_of_uint;
    match goal with
    | |- context [N.to_uint n] =>
        destruct (N.to_uint n); try reflexivity; apply digits_lack_slash
    end.
Qed.

Lemma Number_toString_nonneg (i : Z) :
  (0 <= i)%Z ->
  Number_toString i = NilZero.string_of_uint (N.to_uint (Z.to_N i)).
Proof.
  intros H. destruct i as [|p|p]; [reflexivity|reflexivity|lia].
Qed.

Lemma decimal_parses (n : N) :
  NilZero.uint_of_string (NilZero.string_of_uint (N.to_uint n)) =
    Some (N.to_uint n).
Proof.
  apply NilZero.usu. destruct n as [|p]; [discriminate|].
  simpl. intros E.
  assert (H := DecimalPos.Unsigned.of_to p). rewrite E in H. discriminate.
Qed.

Lemma parse_hardened_decimal (n : N) :
  (n < Path.HARDENED_OFFSET)%N ->
  Path.parse_segment (NilZero.string_of_uint (N.to_uint n) ++ "'") =
    Some (Path.Hardened n).
Proof.
  intros H. unfold Path.parse_segment. rewrite unquote_app, decimal_parses.
  rewrite DecimalN.Unsigned.of_to.
  now rewrite (proj2 (N.ltb_lt _ _) H).
Qed.

(** C1. For an account index [i], a non-negative integer below 2^31,
    [getPrivateKey] returns what the HD library derives from the master key
    along the path string [m/44'/634'/i'/0/0]; read as a path, that string
    is the five segments 44, 634 and [i], hardened, then 0 and 0, not
    hardened; an omitted index is 0. *)
Theorem getPrivateKey_path (i : Z) (w : world) :
  (0 <= i < 2 ^ 31)%Z ->
  getPrivateKey (Some i) w =
    (let? master := getMasterKey w in derive master (hdPath i)) /\
  Path.parse (hdPath i) =
    Some [Path.Hardened 44; Path.Hardened 634; Path.Hardened (Z.to_N i);
          Path.Normal 0; Path.Normal 0] /\
  getPrivateKey None w = getPrivateKey (Some 0%Z) w.
Proof.
  intros [Hi Hb]. split; [reflexivity|]. split; [|reflexivity].
  unfold Path.parse, hdPath. rewrite (Number_toString_nonneg i Hi).
  set (ds := NilZero.string_of_uint (N.to_uint (Z.to_N i))).
  assert (S : split_on "/" (ds ++ "'/0/0") = [ds ++ "'"; "0"; "0"]).
  { rewrite (split_on_app "/" ds "'/0/0" (decimal_lacks_slash _)).
    reflexivity. }
  change ("m/44'/634'/" ++ ds ++ "'/0/0")
    with (String "m" (String "/" (String "4" (String "4" (String "'"
          (String "/" (String "6" (String "3" (String "4" (String "'"
          (String "/" (ds ++ "'/0/0")))))))))))).
  cbn [split_on Ascii.eqb Bool.eqb]. rewrite S.
  cbn [Path.parse_segments]. unfold ds. rewrite parse_hardened_decimal.
  - reflexivity.
  - unfold Path.HARDENED_OFFSET. change (2 ^ 31)%N with (Z.to_N (2 ^ 31)).
    apply Z2N.inj_lt; lia.
Qed.






Lemma to_int_not_nil (z : Z) :
  Z.to_int z <> Decimal.Pos Decimal.Nil /\
  Z.to_int z <> Decimal.Neg Decimal.Nil.
Proof.
  destruct z as [|p|p]; simpl; split; try discriminate;
    intros [= E]; now apply (DecimalPos.Unsigned.to_uint_nonnil p).
Qed.

Lemma Number_toString_inj (i j : Z) :
  Number_toString i = Number_toString j -> i = j.
Proof.
  unfold Number_toString. intros H.
  apply (f_equal NilZero.int_of_string) in H.
  destruct (to_int_not_nil i) as [I1 I2], (to_int_not_nil j) as [J1 J2].
  rewrite !NilZero.isi in H by assumption.
  injection H as H. now apply DecimalZ.to_int_inj.
Qed.

(** X13. Two distinct account indices never give the same path string:
    distinct accounts are never derived along one path. *)
Theorem hdPath_injective (i j : Z) :
  (Z.abs i <= MAX_SAFE_INTEGER)%Z -> (Z.abs j <= MAX_SAFE_INTEGER)%Z ->
  i <> j -> hdPath i <> hdPath j.
Proof.
  intros _ _ N H. apply N. unfold hdPath in H. simpl in H.
  repeat (injection H as H).
  apply append_cancel_r in H. now apply Number_toString_inj.
Qed.

End PathFacts.

(** * The mnemonic encoding and its inverse *)

Section Bip39Facts.
Import Bip39.

(** ** Bits and numbers *)

Lemma bits_to_N_acc (l : list bool) (acc : N) :
  fold_left (fun a b => (2 * a + N.b2n b)%N) l acc =
    (acc * 2 ^ N.of_nat (List.length l) + bits_to_N l)%N.
Proof.
  unfold bits_to_N. revert acc.
  induction l as [|b l IH]; intros acc; cbn [fold_left List.length].
  - rewrite N.pow_0_r. lia.
  - rewrite IH, (IH (2 * 0 + N.b2n b)%N).
    rewrite Nat2N.inj_succ, N.pow_succ_r'. lia.
Qed.

Lemma bits_to_N_cons (b : bool) (l : list bool) :
  bits_to_N (b :: l) =
    (N.b2n b * 2 ^ N.of_nat (List.length l) + bits_to_N l)%N.
Proof.
  unfold bits_to_N at 1. cbn [fold_left]. rewrite bits_to_N_acc. lia.
Qed.

Lemma bits_to_N_bound (l : list bool) :
  (bits_to_N l < 2 ^ N.of_nat (List.length l))%N.
Proof.
  induction l as [|b l IH].
  - cbv. reflexivity.
  - rewrite bits_to_N_cons. cbn [List.length].
    rewrite Nat2N.inj_succ, N.pow_succ_r'.
    destruct b; simpl N.b2n; lia.
Qed.

Lemma N_to_bits_length (k : nat) (n : N) : List.length (N_to_bits k n) = k.
Proof. induction k; simpl; auto. Qed.

(** Bits above the width do not show. *)
Lemma N_to_bits_low (j k : nat) (m n : N) :
  (j <= k)%nat ->
  N_to_bits j (m * 2 ^ N.of_nat k + n) = N_to_bits j n.
Proof.
  induction j as [|j IH]; intros H; simpl; [reflexivity|].
  rewrite IH by lia. f_equal.
  rewrite <- (N.mod_pow2_bits_low (m * 2 ^ N.of_nat k + n) (N.of_nat k)) by lia.
  rewrite <- (N.mod_pow2_bits_low n (N.of_nat k) (N.of_nat j)) by lia.
  f_equal. rewrite N.add_comm, N.Div0.mod_add. reflexivity.
Qed.

Lemma N_to_bits_of_bits (l : list bool) :
  N_to_bits (List.length l) (bits_to_N l) = l.
Proof.
  induction l as [|b l IH]; [reflexivity|].
  rewrite bits_to_N_cons. cbn [List.length N_to_bits].
  rewrite N_to_bits_low, IH by lia. f_equal.
  apply N.b2n_inj. rewrite N.testbit_spec'.
  rewrite N.div_add_l by (apply N.pow_nonzero; lia).
  rewrite (N.div_small (bits_to_N l)) by apply bits_to_N_bound.
  rewrite N.add_0_r. destruct b; reflexivity.
Qed.

Lemma byte_to_bits_length (b : byte) : List.length (byte_to_bits b) = 8%nat.
Proof. apply N_to_bits_length. Qed.

Lemma bits_to_byte_to_bits (b : byte) : bits_to_byte (byte_to_bits b) = b.
Proof. destruct b; reflexivity. Qed.

Lemma bytes_to_bits_length (l : list byte) :
  List.length (bytes_to_bits l) = (8 * List.length l)%nat.
Proof.
  induction l as [|b l IH]; [reflexivity|].
  unfold bytes_to_bits in *. cbn [flat_map].
  rewrite length_app, IH, byte_to_bits_length. cbn [List.length]. lia.
Qed.

(** ** Groups of bits *)

Lemma chunks_fuel_concat {A} (k fuel : nat) (l : list A) :
  (0 < k)%nat -> (List.length l <= fuel)%nat ->
  List.concat (chunks_fuel fuel k l) = l.
Proof.
  intros Hk. revert l.
  induction fuel as [|fuel IH]; intros l H; cbn [chunks_fuel].
  - destruct l; [reflexivity|simpl in H; lia].
  - destruct l as [|a l]; [reflexivity|].
    cbn [List.concat]. rewrite IH, firstn_skipn; [reflexivity|].
    rewrite length_skipn. simpl List.length in *. lia.
Qed.

Lemma chunks_fuel_lengths {A} (k fuel m : nat) (l : list A) :
  (0 < k)%nat -> (List.length l <= fuel)%nat ->
  List.length l = (m * k)%nat ->
  List.length (chunks_fuel fuel k l) = m /\
  Forall (fun g => List.length g = k) (chunks_fuel fuel k l).
Proof.
  intros Hk. revert m l.
  induction fuel as [|fuel IH]; intros m l H Hm; cbn [chunks_fuel].
  - destruct l; [|simpl in H; lia].
    simpl in Hm. split; [simpl; nia|constructor].
  - destruct l as [|a l].
    + simpl in Hm. split; [simpl; nia|constructor].
    + destruct m as [|m]; [simpl in Hm; lia|].
      destruct (IH m (skipn k (a :: l))) as [L F].
      * rewrite length_skipn. simpl List.length in *. lia.
      * rewrite length_skipn, Hm. simpl. lia.
      * split; [simpl; now rewrite L|].
        constructor; [|assumption].
        rewrite length_firstn, Hm. simpl. lia.
Qed.

Lemma chunks_fuel_flat_map {A B} (f : A -> list B) (k fuel : nat) (l : list A) :
  (0 < k)%nat -> (forall x, List.length (f x) = k) ->
  (List.length l <= fuel)%nat ->
  chunks_fuel fuel k (flat_map f l) = map f l.
Proof.
  intros Hk Hf. revert l.
  induction fuel as [|fuel IH]; intros l H; cbn [chunks_fuel].
  - destruct l; [reflexivity|simpl in H; lia].
  - destruct l as [|a l]; [reflexivity|].
    cbn [flat_map map].
    destruct (f a ++ flat_map f l)%list as [|b r] eqn:E.
    + assert (L := f_equal (@List.length B) E).
      rewrite length_app, Hf in L. simpl in L. lia.
    + rewrite <- E. clear E.
      assert (F : firstn k (f a ++ flat_map f l) = f a).
      { rewrite <- (Hf a).
        now rewrite firstn_app, firstn_all, Nat.sub_diag, firstn_O, app_nil_r. }
      assert (S : skipn k (f a ++ flat_map f l) = flat_map f l).
      { rewrite <- (Hf a).
        now rewrite skipn_app, skipn_all, Nat.sub_diag. }
      rewrite F, S. f_equal. apply IH. simpl in H. lia.
Qed.

Lemma chunks_bytes (l : list byte) :
  chunks 8 (bytes_to_bits l) = map byte_to_bits l.
Proof.
  unfold chunks. apply chunks_fuel_flat_map; [lia|apply byte_to_bits_length|].
  rewrite bytes_to_bits_length. lia.
Qed.

Lemma bytes_of_bits (l : list byte) :
  map bits_to_byte (chunks 8 (bytes_to_bits l)) = l.
Proof.
  rewrite chunks_bytes, map_map.
  rewrite (map_ext _ (fun b => b) bits_to_byte_to_bits). apply map_id.
Qed.

(** ** Words *)

Lemma index_of_nth (l : list string) (i : nat) :
  NoDup l -> (i < List.length l)%nat ->
  index_of (nth i l EmptyString) l = Some i.
Proof.
  intros Hd. revert i. induction Hd as [|x l Hx Hd IH]; intros i Hi.
  - simpl in Hi. lia.
  - destruct i as [|i]; cbn [nth index_of].
    + now rewrite String.eqb_refl.
    + simpl in Hi.
      assert (Hin : In (nth i l EmptyString) l) by (apply nth_In; lia).
      destruct (String.eqb_spec x (nth i l EmptyString)) as [E|E].
      * exfalso. apply Hx. now rewrite E.
      * rewrite IH by lia. reflexivity.
Qed.

Section RoundTrip.
Variable sha256 : list byte -> list byte.
Variable wordlist : list string.
Hypothesis sha256_length : forall l, List.length (sha256 l) = 32%nat.
Hypothesis wordlist_length : List.length wordlist = 2048%nat.
Hypothesis wordlist_distinct : distinct wordlist = true.
Hypothesis wordlist_no_space : forallb (lacks " ") wordlist = true.

Lemma group_index (g : list bool) :
  List.length g = 11%nat ->
  (N.to_nat (bits_to_N g) < List.length wordlist)%nat.
Proof.
  intros H. assert (B := bits_to_N_bound g). rewrite H in B.
  rewrite wordlist_length. change (2 ^ N.of_nat 11)%N with 2048%N in B. lia.
Qed.

Lemma decode_groups (gs : list (list bool)) :
  gs <> [] -> Forall (fun g => List.length g = 11%nat) gs ->
  split_on " " (String.concat " " (map (word_of wordlist) gs)) =
    map (word_of wordlist) gs /\
  indices wordlist (map (word_of wordlist) gs) =
    Some (map (fun g => N.to_nat (bits_to_N g)) gs) /\
  flat_map (fun i => N_to_bits 11 (N.of_nat i))
    (map (fun g => N.to_nat (bits_to_N g)) gs) = List.concat gs.
Proof.
  intros Hn Hg. split; [|split].
  - apply split_concat.
    + destruct gs; [contradiction|discriminate].
    + apply Forall_map. apply Forall_impl with (2 := Hg). intros g L.
      unfold word_of.
      apply (proj1 (forallb_forall _ _) wordlist_no_space).
      apply nth_In. now apply group_index.
  - clear Hn. induction Hg as [|g gs L Hg IH]; [reflexivity|].
    cbn [map indices]. rewrite IH. unfold word_of at 1.
    rewrite index_of_nth;
      [reflexivity|now apply distinct_NoDup|now apply group_index].
  - clear Hn. induction Hg as [|g gs L Hg IH]; [reflexivity|].
    cbn [map flat_map List.concat]. rewrite IH. f_equal.
    rewrite N2Nat.id, <- L. apply N_to_bits_of_bits.
Qed.

Lemma checksum_bits_length (e : list byte) (k : nat) :
  List.length e = (4 * k)%nat -> (k <= 8)%nat ->
  List.length (checksum_bits sha256 e) = k.
Proof.
  intros H Hk. unfold checksum_bits.
  rewrite length_firstn, bytes_to_bits_length, sha256_length, H.
  replace (4 * k * 8)%nat with (k * 32)%nat by lia.
  rewrite Nat.div_mul by lia. lia.
Qed.

(** C9. For entropy of 128, 160, 192, 224 or 256 bits, the mnemonic
    encoding returns a mnemonic, and decoding that mnemonic returns the
    bytes of the entropy, unchanged. *)
Theorem mnemonic_round_trip (entropy : list byte) :
  In (8 * List.length entropy)%nat [128; 160; 192; 224; 256]%nat ->
  exists mnemonic,
    entropyToMnemonic sha256 wordlist entropy = Ok mnemonic /\
    mnemonicToEntropy sha256 wordlist mnemonic = Ok entropy.
Proof.
  intros Hin.
  assert (Hk : exists k,
             List.length entropy = (4 * k)%nat /\ (4 <= k <= 8)%nat).
  { simpl in Hin.
    destruct Hin as [H|[H|[H|[H|[H|[]]]]]];
      [exists 4%nat|exists 5%nat|exists 6%nat|exists 7%nat|exists 8%nat]; lia. }
  destruct Hk as (k & Hlen & Hk).
  assert (Hbad : bad_length (List.length entropy) = false).
  { unfold bad_length. rewrite Hlen.
    replace (4 * k)%nat with (k * 4)%nat by lia. rewrite Nat.Div0.mod_mul.
    apply orb_false_iff. split; [apply orb_false_iff; split|reflexivity].
    - apply Nat.ltb_ge. lia.
    - apply Nat.ltb_ge. lia. }
  set (E := bytes_to_bits entropy).
  set (K := checksum_bits sha256 entropy).
  assert (LE : List.length E = (32 * k)%nat).
  { unfold E. rewrite bytes_to_bits_length. lia. }
  assert (LK : List.length K = k).
  { apply checksum_bits_length; [assumption|lia]. }
  set (gs := chunks 11 (E ++ K)).
  assert (LB : List.length (E ++ K) = (3 * k * 11)%nat).
  { rewrite length_app. lia. }
  destruct (chunks_fuel_lengths 11 (List.length (E ++ K)) (3 * k) (E ++ K))
    as [Lg Fg]; [lia|lia|assumption|].
  fold (chunks 11 (E ++ K)) in Lg, Fg. fold gs in Lg, Fg.
  assert (Cg : List.concat gs = (E ++ K)%list).
  { apply chunks_fuel_concat; lia. }
  assert (Ng : gs <> []).
  { intros N. rewrite N in Lg. simpl in Lg. lia. }
  destruct (decode_groups gs Ng Fg) as (D1 & D2 & D3).
  exists (String.concat " " (map (word_of wordlist) gs)).
  split.
  - unfold entropyToMnemonic. rewrite Hbad. reflexivity.
  - unfold mnemonicToEntropy. rewrite D1, length_map, Lg.
    replace (3 * k)%nat with (k * 3)%nat by lia. rewrite Nat.Div0.mod_mul.
    cbn [Nat.eqb negb]. rewrite D2, D3, Cg, LB.
    replace (3 * k * 11)%nat with (k * 33)%nat by lia.
    rewrite Nat.div_mul by lia.
    replace (k * 32)%nat with (List.length E) by lia.
    rewrite firstn_app, Nat.sub_diag, firstn_O, app_nil_r, firstn_all.
    rewrite skipn_app, Nat.sub_diag, skipn_all.
    cbn [skipn app]. unfold E. rewrite bytes_of_bits, Hbad.
    fold K. destruct (list_eq_dec bool_dec K K); [reflexivity|contradiction].
Qed.

End RoundTrip.
End Bip39Facts.

(** * The theorems at work on the scripted instance *)

Section ScriptedRuns.
Import Scripted.

Lemma getPrivateKey_path_witness :
  (0 <= 7 < 2 ^ 31)%Z /\
  (getPrivateKey (Some 7%Z) (session [] (VString "000102")) =
     (let? master := getMasterKey (session [] (VString "000102")) in
      derive master (hdPath 7)) /\
   Path.parse (hdPath 7) =
     Some [Path.Hardened 44; Path.Hardened 634; Path.Hardened (Z.to_N 7);
           Path.Normal 0; Path.Normal 0] /\
   getPrivateKey None (session [] (VString "000102")) =
     getPrivateKey (Some 0%Z) (session [] (VString "000102"))).
Proof.
  assert (H : (0 <= 7 < 2 ^ 31)%Z) by lia.
  split; [exact H|].
  exact (getPrivateKey_path 7 (session [] (VString "000102")) H).
Defined.

Lemma accessors_before_recovery_witness :
  accessors_throw (run [OpRecoverSecret; OpForgetSecret] (fresh []))
    NotInitializedError /\
  accessors_throw
    (run [OpInit "key" None None; OpRecoverSecret] (fresh login_cancelled))
    SecretNotRecoveredError.
Proof.
  split.
  - apply (accessors_before_recovery (C := collaborators) []
             [OpRecoverSecret; OpForgetSecret]).
    reflexivity.
  - destruct (accessors_before_recovery (C := collaborators) login_cancelled
                [OpInit "key" None None; OpRecoverSecret]) as (_ & _ & H).
    destruct (H eq_refl) as [H1 _]. apply H1. reflexivity.
Defined.

Lemma forgetSecret_fails_closed_witness :
  forgetSecret (session logout_then_cancelled (VString "000102")) =
    (Ok tt,
     snd (forgetSecret (session logout_then_cancelled (VString "000102")))) /\
  secret (snd (forgetSecret (session logout_then_cancelled (VString "000102"))))
    = VNull /\
  accessors_throw
    (run [OpInit "key" None None; OpRecoverSecret]
       (snd (forgetSecret (session logout_then_cancelled (VString "000102")))))
    SecretNotRecoveredError.
Proof.
  assert (H : forgetSecret (session logout_then_cancelled (VString "000102")) =
    (Ok tt,
     snd (forgetSecret (session logout_then_cancelled (VString "000102")))))
    by reflexivity.
  split; [exact H|].
  destruct (forgetSecret_fails_closed _ _ H) as [H1 H2].
  split; [exact H1|]. apply H2. reflexivity.
Defined.

Lemma key_bytes_recomputed_witness :
  getPrivateKeyBytes (Some 3%Z) (session [] (VString "000102")) =
    Ok "privateKey(derive(master(seed(words(000102))),m/44'/634'/3'/0/0))" /\
  getPrivateKeyBytes (Some 3%Z) (session login_cancelled (VString "000102")) =
    getPrivateKeyBytes (Some 3%Z) (session [] (VString "000102")).
Proof.
  destruct (key_bytes_recomputed (Some 3%Z) (session [] (VString "000102")))
    as (H1 & _ & H3).
  split; [rewrite H1; reflexivity|].
  apply (H3 (session login_cancelled (VString "000102")));
    (discriminate || reflexivity).
Defined.

Lemma recoverSecret_contract_witness :
  recoverSecret (fresh [Ok (VString "000102")]) =
    (Throw NotInitializedError, fresh [Ok (VString "000102")]) /\
  recoverSecret (session [Ok VUndefined; Ok (VString "000102")] VNull) =
    (Ok true,
     {| web3auth := Some "client"; secret := VString "000102"; outside := [];
        calls := [CallConnect; CallRequest "private_key"] |}).
Proof.
  split.
  - apply (recoverSecret_contract (fresh [Ok (VString "000102")])).
    reflexivity.
  - apply (proj2 (recoverSecret_contract
             (session [Ok VUndefined; Ok (VString "000102")] VNull))
             "client" [Ok (VString "000102")] [] (VString "000102"));
      reflexivity.
Defined.

Lemma recoverSecret_failure_keeps_state_witness :
  recoverSecret (session [Throw (Error "user closed the modal")]
                   (VString "000102")) =
    (Throw (Error "user closed the modal"),
     {| web3auth := Some "client"; secret := VString "000102"; outside := [];
        calls := [CallConnect] |}) /\
  recoverSecret (session [Ok VUndefined; Throw (Error "no key")]
                   (VString "000102")) =
    (Throw (Error "no key"),
     {| web3auth := Some "client"; secret := VString "000102"; outside := [];
        calls := [CallConnect; CallRequest "private_key"] |}).
Proof.
  split.
  - apply (proj1 (recoverSecret_failure_keeps_state
             (session [Throw (Error "user closed the modal")]
                (VString "000102"))
             "client" (Error "user closed the modal") eq_refl) []).
    reflexivity.
  - apply (proj1 (proj2 (recoverSecret_failure_keeps_state
             (session [Ok VUndefined; Throw (Error "no key")]
                (VString "000102"))
             "client" (Error "no key") eq_refl)) [Throw (Error "no key")] []);
      reflexivity.
Defined.

Lemma forgetSecret_logout_failure_witness :
  forgetSecret (session [Throw (Error "offline")] (VString "000102")) =
    (Throw (Error "offline"),
     {| web3auth := Some "client"; secret := VString "000102"; outside := [];
        calls := [CallLogout] |}) /\
  getEntropy (snd (forgetSecret
                     (session [Throw (Error "offline")] (VString "000102")))) =
    Ok (VString "000102").
Proof.
  destruct (forgetSecret_logout_failure
              (session [Throw (Error "offline")] (VString "000102"))
              "client" (Error "offline") [] eq_refl eq_refl) as (H1 & _ & H3).
  split; [exact H1|]. rewrite H3. reflexivity.
Defined.

Lemma falsy_secret_is_lost_witness :
  fst (recoverSecret (session [Ok VUndefined; Ok (VString "")] VNull)) =
    Ok true /\
  accessors_throw
    (snd (recoverSecret (session [Ok VUndefined; Ok (VString "")] VNull)))
    SecretNotRecoveredError.
Proof.
  destruct (falsy_secret_is_lost
              (session [Ok VUndefined; Ok (VString "")] VNull)
              "client" [Ok (VString "")] [] (VString "")
              eq_refl eq_refl eq_refl eq_refl) as (_ & H1 & _ & H2).
  split; [exact H1|exact H2].
Defined.

Lemma digest_length (l : list byte) : List.length (digest l) = 32%nat.
Proof.
  unfold digest. rewrite length_firstn, length_app, repeat_length. lia.
Qed.

Lemma mnemonic_round_trip_witness :
  exists mnemonic,
    Bip39.entropyToMnemonic digest words entropy16 = Ok mnemonic /\
    Bip39.mnemonicToEntropy digest words mnemonic = Ok entropy16.
Proof.
  apply (mnemonic_round_trip digest words digest_length).
  - vm_compute. reflexivity.
  - vm_compute. reflexivity.
  - vm_compute. reflexivity.
  - vm_compute. left. reflexivity.
Defined.

(** ** Further runs *)

Lemma init_keeps_entropy_witness :
  getEntropy (session [] (VString "000102")) = Ok (VString "000102") /\
  getEntropy (snd (init "key" None None (session [] (VString "000102")))) =
    Ok (VString "000102").
Proof.
  split; [reflexivity|].
  exact (proj2 (init_keeps_entropy "key" None None
                  (session [] (VString "000102")) (VString "000102") eq_refl)).
Defined.

Lemma init_contract_witness :
  init "key" None None (fresh []) =
    (Ok tt,
     {| web3auth := Some "client(key,AB_testnet,sapphire_devnet,WALLET)";
        secret := VNull; outside := [];
        calls := [CallNewPrivateKeyProvider; CallNewAdapter; CallNewWeb3Auth;
                  CallConfigureAdapter; CallInitModal] |}).
Proof.
  apply (init_contract (C := collaborators) "key" None None (fresh [])
           "provider(AB_testnet)" "adapter(provider(AB_testnet))"
           "client(key,AB_testnet,sapphire_devnet,WALLET)" [] [] [] [] []);
    reflexivity.
Defined.

Lemma init_constructor_failure_witness :
  init "key" None None
    (session [Throw (Error "no provider")] (VString "000102")) =
    (Throw (Error "no provider"),
     {| web3auth := Some "client"; secret := VString "000102"; outside := [];
        calls := [CallNewPrivateKeyProvider] |}) /\
  init "key" None None
    (fresh [Ok VUndefined; Ok VUndefined; Throw (Error "no Modal")]) =
    (Throw (Error "no Modal"),
     {| web3auth := None; secret := VNull; outside := [];
        calls := [CallNewPrivateKeyProvider; CallNewAdapter;
                  CallNewWeb3Auth] |}).
Proof.
  split.
  - apply (proj1 (init_constructor_failure "key" None None
             (session [Throw (Error "no provider")] (VString "000102"))
             (Error "no provider")) []).
    reflexivity.
  - apply (proj2 (proj2 (init_constructor_failure (C := collaborators)
             "key" None None
             (fresh [Ok VUndefined; Ok VUndefined; Throw (Error "no Modal")])
             (Error "no Modal")))
             "provider(AB_testnet)" "adapter(provider(AB_testnet))"
             [Ok VUndefined; Throw (Error "no Modal")]
             [Throw (Error "no Modal")] []);
      reflexivity.
Defined.

Lemma init_late_failure_witness :
  fst (init "key" None None
         (fresh [Ok VUndefined; Ok VUndefined; Ok VUndefined;
                 Throw (Error "no adapter")])) =
    Throw (Error "no adapter") /\
  web3auth (snd (init "key" None None
                   (fresh [Ok VUndefined; Ok VUndefined; Ok VUndefined;
                           Throw (Error "no adapter")]))) =
    Some "client(key,AB_testnet,sapphire_devnet,WALLET)".
Proof.
  destruct (init_late_failure (C := collaborators) "key" None None
              (fresh [Ok VUndefined; Ok VUndefined; Ok VUndefined;
                      Throw (Error "no adapter")])
              "provider(AB_testnet)" "adapter(provider(AB_testnet))"
              "client(key,AB_testnet,sapphire_devnet,WALLET)"
              [Ok VUndefined; Ok VUndefined; Throw (Error "no adapter")]
              [Ok VUndefined; Throw (Error "no adapter")]
              [Throw (Error "no adapter")] (Error "no adapter")
              eq_refl eq_refl eq_refl (or_introl eq_refl))
    as (H1 & H2 & _).
  split; [exact H1|exact H2].
Defined.

Lemma initialized_for_good_witness :
  web3auth (run [OpForgetSecret; OpInit "key" None None; OpRecoverSecret]
              (session logout_then_cancelled (VString "000102"))) <> None /\
  getEntropy (run [OpForgetSecret; OpInit "key" None None; OpRecoverSecret]
                (session logout_then_cancelled (VString "000102"))) <>
    Throw NotInitializedError.
Proof.
  apply (initialized_for_good
           (session logout_then_cancelled (VString "000102"))
           [OpForgetSecret; OpInit "key" None None; OpRecoverSecret]).
  discriminate.
Defined.

Lemma no_secret_without_client_witness :
  secret (run [OpInit "key" None None; OpRecoverSecret; OpForgetSecret]
            (fresh [Throw (Error "no provider"); Ok (VString "000102")])) =
    VNull.
Proof.
  apply (no_secret_without_client (C := collaborators)
           [Throw (Error "no provider"); Ok (VString "000102")]
           [OpInit "key" None None; OpRecoverSecret; OpForgetSecret]).
  reflexivity.
Defined.

Lemma getEntropy_returns_iff_witness :
  getEntropy (session [] (VString "000102")) = Ok (VString "000102").
Proof.
  apply (getEntropy_returns_iff (session [] (VString "000102"))
           (VString "000102")).
  repeat split; (discriminate || reflexivity).
Defined.

Lemma recovered_entropy_is_returned_witness :
  fst (recoverSecret (session [Ok VUndefined; Ok (VString "0a0b")]
                        (VString "000102"))) = Ok true /\
  getEntropy (snd (recoverSecret (session [Ok VUndefined; Ok (VString "0a0b")]
                                    (VString "000102")))) =
    Ok (VString "0a0b").
Proof.
  apply (recovered_entropy_is_returned
           (session [Ok VUndefined; Ok (VString "0a0b")] (VString "000102"))
           "client" [Ok (VString "0a0b")] [] (VString "0a0b"));
    reflexivity.
Defined.

Lemma forgetSecret_contract_witness :
  forgetSecret (fresh [Ok VUndefined]) =
    (Throw NotInitializedError, fresh [Ok VUndefined]) /\
  forgetSecret (session [Ok VUndefined] VNull) =
    (Ok tt,
     {| web3auth := Some "client"; secret := VNull; outside := [];
        calls := [CallLogout] |}).
Proof.
  split.
  - apply (proj1 (forgetSecret_contract (fresh [Ok VUndefined]))).
    reflexivity.
  - apply (proj2 (forgetSecret_contract (session [Ok VUndefined] VNull))
             "client" []); reflexivity.
Defined.

Lemma forget_then_recover_witness :
  getEntropy
    (run [OpForgetSecret; OpRecoverSecret]
       (session [Ok VUndefined; Ok VUndefined; Ok (VString "0a0b")]
          (VString "000102"))) =
    Ok (VString "0a0b").
Proof.
  apply (forget_then_recover
           (session [Ok VUndefined; Ok VUndefined; Ok (VString "0a0b")]
              (VString "000102"))
           "client" [Ok VUndefined; Ok (VString "0a0b")]
           [Ok (VString "0a0b")] [] (VString "0a0b"));
    reflexivity.
Defined.

Lemma failure_propagates_witness :
  getEntropy (session [] (VNumber 5)) = Ok (VNumber 5) /\
  getMnemonic (session [] (VNumber 5)) = Throw (Error "Invalid entropy") /\
  getPublicKeyBytes (Some 2%Z) (session [] (VNumber 5)) =
    Throw (Error "Invalid entropy").
Proof.
  destruct (failure_propagates (session [] (VNumber 5))
              (Error "Invalid entropy")) as (_ & H2 & H3 & H4 & H5).
  split; [reflexivity|]. split; [reflexivity|].
  apply H5, H4, H3, H2. reflexivity.
Defined.

Lemma hdPath_injective_witness :
  (Z.abs 1 <= MAX_SAFE_INTEGER)%Z /\ (Z.abs 2 <= MAX_SAFE_INTEGER)%Z /\
  hdPath 1 <> hdPath 2.
Proof.
  assert (H1 : (Z.abs 1 <= MAX_SAFE_INTEGER)%Z)
    by (unfold MAX_SAFE_INTEGER; lia).
  assert (H2 : (Z.abs 2 <= MAX_SAFE_INTEGER)%Z)
    by (unfold MAX_SAFE_INTEGER; lia).
  split; [exact H1|]. split; [exact H2|].
  apply (hdPath_injective 1 2 H1 H2). lia.
Defined.

End ScriptedRuns.

(** * The account index on the instance with the libraries' checks *)

Section CheckedRuns.




End CheckedRuns.
